(** * BetterMann API: request handlers, schemas and store gateway

    A shallow embedding of [src/main.py] and [src/schemas.py].

    Conventions of the embedding.
    - A Python [str] is a Rocq [string]; each [ascii] stands for one
      character (code point below 256).
    - The process-wide handle [db] is [option Store]: [None] is the
      uninitialised handle, [Some st] a live database holding [st].  A live
      handle is a database object of the driver, which has no truth value:
      the test [db is None] compares it with [None], whereas the test
      [if db] asks for its truth value and raises [NotImplementedError].
    - A handler is a computation in the monad [M]: it reads and updates the
      handle, and either returns a value or raises.  The third outcome,
      [None], is reserved for what lies outside the model: a query whose
      [$regex] pattern is not in the fragment of [Module Regex], a body
      with a member whose coercion [Module Json] does not cover.
    - Collections hold the dumps of the schema classes of [src/schemas.py],
      so a stored document is the schema record together with its [_id]. *)

From Stdlib Require Import Bool Ascii String List Arith NArith ZArith QArith Lia.
From Stdlib Require Import DecimalString.
Import ListNotations.

Set Implicit Arguments.
Local Close Scope Q_scope.
Local Open Scope string_scope.

(* ================================================================== *)
(** ** Python strings *)

Module Py.

(** [s.endswith(suffix)]. *)
Fixpoint endswith (s suffix : string) : bool :=
  if String.eqb s suffix then true
  else match s with
       | EmptyString => false
       | String _ s' => endswith s' suffix
       end.

(** [s.startswith(prefix)]. *)
Fixpoint startswith (s prefix : string) : bool :=
  match prefix, s with
  | EmptyString, _ => true
  | String _ _, EmptyString => false
  | String a p, String b s' => Ascii.eqb a b && startswith s' p
  end.

(** [needle in hay] on strings. *)
Fixpoint contains (hay needle : string) : bool :=
  startswith hay needle ||
  match hay with
  | EmptyString => false
  | String _ hay' => contains hay' needle
  end.

(** Truth value of an [Optional[str]]: [None] and [""] are falsy. *)
Definition truthy (o : option string) : bool :=
  match o with
  | Some s => negb (String.eqb s "")
  | None => false
  end.

(** Truth value of a list: only the empty list is falsy. *)
Definition truthy_list {A} (l : list A) : bool :=
  match l with [] => false | _ :: _ => true end.

(** [x in l] on lists of strings. *)
Definition mem (x : string) (l : list string) : bool :=
  existsb (String.eqb x) l.

(** [str(n)] of a non-negative integer. *)
Definition str_of_N (n : N) : string :=
  DecimalString.NilZero.string_of_uint (N.to_uint n).

End Py.

(* ================================================================== *)
(** ** The regular-expression fragment

    The handlers pass request parameters verbatim as [$regex] patterns with
    option ["i"].  The store evaluates them as unanchored searches.  The
    fragment modelled here has literal characters and the wildcard [.];
    every other metacharacter, and every character outside ASCII in a
    pattern, makes [compile] answer [None]. *)

Module Regex.

Inductive atom : Type :=
| Lit (c : ascii)
| AnyChar.

Definition code (c : ascii) : N := N_of_ascii c.

(** ASCII case folding, as option ["i"] does on ASCII letters. *)
Definition lower (c : ascii) : ascii :=
  if ((65 <=? code c) && (code c <=? 90))%N
  then ascii_of_N (code c + 32) else c.

Fixpoint lower_string (s : string) : string :=
  match s with
  | EmptyString => EmptyString
  | String c s' => String (lower c) (lower_string s')
  end.

Definition metachars : list ascii :=
  list_ascii_of_string "\^$.[]|()?*+{}".

Definition is_meta (c : ascii) : bool :=
  existsb (Ascii.eqb c) metachars.

Definition compile_char (c : ascii) : option atom :=
  if Ascii.eqb c "." then Some AnyChar
  else if is_meta c || (128 <=? code c)%N then None
  else Some (Lit c).

Fixpoint compile (pattern : string) : option (list atom) :=
  match pattern with
  | EmptyString => Some []
  | String c p =>
      match compile_char c, compile p with
      | Some a, Some r => Some (a :: r)
      | _, _ => None
      end
  end.

(** The wildcard matches every character except the line feed. *)
Definition atom_matches (caseless : bool) (a : atom) (c : ascii) : bool :=
  match a with
  | Lit x => if caseless then Ascii.eqb (lower x) (lower c) else Ascii.eqb x c
  | AnyChar => negb (Ascii.eqb c "010")
  end.

(** Match of the whole pattern at the start of [s]. *)
Fixpoint match_here (caseless : bool) (r : list atom) (s : string) : bool :=
  match r, s with
  | [], _ => true
  | _ :: _, EmptyString => false
  | a :: r', String c s' => atom_matches caseless a c && match_here caseless r' s'
  end.

(** Unanchored search: a match at some position of [s]. *)
Fixpoint search (caseless : bool) (r : list atom) (s : string) : bool :=
  match_here caseless r s ||
  match s with
  | EmptyString => false
  | String _ s' => search caseless r s'
  end.

(** Options string of the query: [""] or ["i"]. *)
Definition caseless_of (options : string) : option bool :=
  if String.eqb options "" then Some false
  else if String.eqb options "i" then Some true
  else None.

(** A pattern made of literal characters only. *)
Definition literal_char (c : ascii) : bool :=
  negb (is_meta c) && (code c <? 128)%N.

Fixpoint literal (pattern : string) : bool :=
  match pattern with
  | EmptyString => true
  | String c p => literal_char c && literal p
  end.

(** The specification's wording: [field] contains [param] as a
    case-insensitive substring. *)
Definition ci_substring (param field : string) : Prop :=
  exists pre post,
    lower_string field = pre ++ lower_string param ++ post.

(** The same, as a test. *)
Definition contains_ci (param field : string) : bool :=
  Py.contains (lower_string field) (lower_string param).

End Regex.

(* ================================================================== *)
(** ** Schemas ([src/schemas.py])

    One module per class; field names are the source's.  [datetime] values
    are kept as seconds since the epoch, [float] values as rationals (every
    finite float is one). *)

Definition datetime := Z.

Module User.
Record t : Type := Build {
  name : string;
  email : string;
  password_hash : string;
  phone : option string;
  language : option string;
  city : option string;
  is_active : bool;
  role : string }.
End User.

Module Therapist.
Record t : Type := Build {
  name : string;
  email : string;
  bio : option string;
  education : option string;
  specialties : list string;
  experience_years : Z;
  languages : list string;
  gender : option string;
  city : option string;
  price_per_week_inr : Z;
  rating : Q;
  photo_url : option string;
  slots : list string }.
End Therapist.

Module Review.
Record t : Type := Build {
  user_name : string;
  rating : Z;
  comment : string;
  city : option string;
  created_at : option datetime }.
End Review.

Module BlogPost.
Record t : Type := Build {
  title : string;
  slug : string;
  excerpt : string;
  content : string;
  tags : list string;
  cover_image : option string;
  published_at : option datetime }.
End BlogPost.

Module FAQ.
Record t : Type := Build {
  question : string;
  answer : string;
  category : option string }.
End FAQ.

Module Plan.
Record t : Type := Build {
  name : string;
  price_inr : Z;
  period : string;
  features : list string }.
End Plan.

Module ContactMessage.
Record t : Type := Build {
  name : string;
  email : string;
  subject : string;
  message : string }.
End ContactMessage.

Module MatchRequest.
Record t : Type := Build {
  age : option Z;
  concerns : list string;
  language : option string;
  gender_preference : option string;
  city : option string }.
End MatchRequest.

Module Session.
Record t : Type := Build {
  user_id : string;
  therapist_id : string;
  mode : string;
  scheduled_for : option datetime;
  status : string }.
End Session.

(** Request bodies declared in [src/main.py]. *)
Module SignupRequest.
Record t : Type := Build {
  name : string;
  email : string;
  password : string;
  language : option string }.
End SignupRequest.

Module LoginRequest.
Record t : Type := Build {
  email : string;
  password : string }.
End LoginRequest.

(* ================================================================== *)
(** ** Errors *)

(** Why a field of a payload is refused. *)
Inductive reason : Type :=
| Required          (* the field is absent and has no default *)
| WrongType         (* the value does not parse at the declared type *)
| GreaterThanEqual  (* a [ge] bound is violated *)
| LessThanEqual     (* a [le] bound is violated *)
| BadEmail.         (* [EmailStr] refuses the syntax *)

(** What a handler can raise. *)
Inductive exn : Type :=
| HTTPException (status_code : nat) (detail : string)
| RequestValidationError (errors : list (string * reason))
| GatewayError      (* raised by the store gateway without a connection *)
| NotImplementedError  (* the truth value of a live database handle *)
| TypeError.        (* [None] is not subscriptable *)

(** The error taxonomy of the specification. *)
Inductive kind : Type :=
| ValidationError
| DuplicateEmail
| NotFound
| InvalidCredentials
| StoreUnavailable.

(** Modelled from the spec: the failure column of the interface table
    (400 DuplicateEmail, 404 NotFound, 401 InvalidCredentials,
    500 StoreUnavailable), and the gateway, which "fails with
    StoreUnavailable if no store connection exists". *)
Definition kind_of (e : exn) : option kind :=
  match e with
  | HTTPException 400 _ => Some DuplicateEmail
  | HTTPException 404 _ => Some NotFound
  | HTTPException 401 _ => Some InvalidCredentials
  | HTTPException 500 _ => Some StoreUnavailable
  | HTTPException _ _ => None
  | RequestValidationError _ => Some ValidationError
  | GatewayError => Some StoreUnavailable
  | NotImplementedError => None
  | TypeError => None
  end.

Inductive result (A : Type) : Type :=
| Ok (a : A)
| Raise (e : exn).
Arguments Ok {A} a.
Arguments Raise {A} e.

(* ================================================================== *)
(** ** Validation of a Therapist payload

    The framework parses the body of [POST /api/therapists] against
    [class Therapist] before [add_therapist] runs.  The body is a JSON
    object; each member is first coerced to the type declared for the
    field, then checked.  [raw A] is the outcome of the coercion for a
    field of type [A]: no member of that name, a value that cannot be
    coerced to [A], or the coerced value.  Requiredness, defaults and
    bounds are those declared in [src/schemas.py]. *)

Inductive raw (A : Type) : Type :=
| Missing
| Malformed
| Given (a : A).
Arguments Missing {A}.
Arguments Malformed {A}.
Arguments Given {A} a.

(** JSON values and their coercion to the declared types.

    The coercions are those of the validation library in its default
    mode, which is lenient: a number field takes a number, a boolean (as 1
    or 0) or a numeric string; a text field takes a string.  Each function
    answers [None] where the outcome is not modelled (it differs between
    versions of the library, or goes through float rounding): a number or
    a boolean for a text field, a float with a fractional part for an
    [int] field, strings that are neither plain decimal numerals nor free
    of digits, numerals of more than 15 characters, integers beyond 2^53
    for a [float] field.  A [Float] holds the value of a finite double. *)
Module Json.

#[warnings="-register-all"] Inductive t : Type :=
| Null
| Bool (b : bool)
| Int (z : Z)
| Float (q : Q)
| Str (s : string)
| Arr (l : list t)
| Obj (o : list (string * t)).

(** The member [k] of an object; the last one wins when a name repeats. *)
Definition member (k : string) (o : list (string * t)) : option t :=
  option_map snd (List.find (fun kv => String.eqb (fst kv) k) (rev o)).

Definition is_digit (c : ascii) : bool :=
  ((48 <=? N_of_ascii c) && (N_of_ascii c <=? 57))%N.

Definition digit (c : ascii) : Z := Z.of_N (N_of_ascii c) - 48.

Fixpoint has_digit (s : string) : bool :=
  match s with
  | EmptyString => false
  | String c s' => is_digit c || has_digit s'
  end.

(** The digits after the point: [num / den] so far. *)
Fixpoint fraction (s : string) (num : Z) (den : positive) : option Q :=
  match s with
  | EmptyString => Some (num # den)%Q
  | String c s' =>
      if is_digit c then fraction s' (10 * num + digit c) (10 * den)
      else None
  end.

(** A plain decimal numeral: digits, or digits, a point and digits. *)
Fixpoint numeral (s : string) (num : Z) (seen : bool) : option Q :=
  match s with
  | EmptyString => if seen then Some (num # 1)%Q else None
  | String c s' =>
      if is_digit c then numeral s' (10 * num + digit c) true
      else if Ascii.eqb c "." && seen then
        match s' with
        | EmptyString => None
        | _ => fraction s' num 1
        end
      else None
  end.

Definition decimal (s : string) : option Q :=
  if (String.length s <=? 15)%nat then numeral s 0 false else None.

(** A numeral without a point. *)
Definition natural (s : string) : option Z :=
  if has_digit s && forallb is_digit (list_ascii_of_string s) then
    match decimal s with Some q => Some (Qnum q) | None => None end
  else None.

Definition as_str (j : t) : option (raw string) :=
  match j with
  | Str s => Some (Given s)
  | Null | Arr _ | Obj _ => Some Malformed
  | Bool _ | Int _ | Float _ => None
  end.

Definition as_opt_str (j : t) : option (raw (option string)) :=
  match j with
  | Null => Some (Given None)
  | Str s => Some (Given (Some s))
  | Arr _ | Obj _ => Some Malformed
  | Bool _ | Int _ | Float _ => None
  end.

Definition as_int (j : t) : option (raw Z) :=
  match j with
  | Int z => Some (Given z)
  | Bool b => Some (Given (if b then 1 else 0)%Z)
  | Float q =>
      if (Qnum q mod Zpos (Qden q) =? 0)%Z
      then Some (Given (Qnum q / Zpos (Qden q))%Z) else None
  | Str s =>
      match natural s with
      | Some z => Some (Given z)
      | None => if has_digit s then None else Some Malformed
      end
  | Null | Arr _ | Obj _ => Some Malformed
  end.

Definition as_float (j : t) : option (raw Q) :=
  match j with
  | Float q => Some (Given q)
  | Int z =>
      if (Z.abs z <=? 2 ^ 53)%Z then Some (Given (z # 1)%Q) else None
  | Bool b => Some (Given (if b then 1 else 0)%Q)
  | Str s =>
      match decimal s with
      | Some q => Some (Given q)
      | None => None
      end
  | Null | Arr _ | Obj _ => Some Malformed
  end.

(** The elements of an array of strings, one by one. *)
Fixpoint strings (l : list t) : option (raw (list string)) :=
  match l with
  | [] => Some (Given [])
  | j :: l' =>
      match as_str j, strings l' with
      | Some (Given s), Some (Given r) => Some (Given (s :: r))
      | Some _, Some _ => Some Malformed
      | _, _ => None
      end
  end.

Definition as_str_list (j : t) : option (raw (list string)) :=
  match j with
  | Arr l => strings l
  | Null | Bool _ | Int _ | Float _ | Str _ => Some Malformed
  | Obj _ => None
  end.

(** The coercion of the member [k] of the body. *)
Definition field {A} (k : string) (o : list (string * t))
    (coerce : t -> option (raw A)) : option (raw A) :=
  match member k o with
  | None => Some Missing
  | Some j => coerce j
  end.


End Json.

Module RawTherapist.
Record t : Type := Build {
  name : raw string;
  email : raw string;
  bio : raw (option string);
  education : raw (option string);
  specialties : raw (list string);
  experience_years : raw Z;
  languages : raw (list string);
  gender : raw (option string);
  city : raw (option string);
  price_per_week_inr : raw Z;
  rating : raw Q;
  photo_url : raw (option string);
  slots : raw (list string) }.
End RawTherapist.

Section Validation.

(** [EmailStr]: the syntax check of an address, which answers the address
    in its normal form or refuses it.  The checker is a third-party
    package, so it is a parameter here. *)
Variable normalize_email : string -> option string.

(** Errors of one field; a field without a default is required. *)
Definition field_errors {A} (field : string) (has_default : bool)
    (check : A -> list reason) (r : raw A) : list (string * reason) :=
  match r with
  | Missing => if has_default then [] else [(field, Required)]
  | Malformed => [(field, WrongType)]
  | Given a => map (pair field) (check a)
  end.

Definition value_or {A} (default : A) (r : raw A) : A :=
  match r with Given a => a | _ => default end.

Definition no_check {A} (_ : A) : list reason := [].

Definition check_email (s : string) : list reason :=
  match normalize_email s with Some _ => [] | None => [BadEmail] end.

(** The address as the record keeps it. *)
Definition email_value (r : raw string) : string :=
  match r with
  | Given s => match normalize_email s with Some s' => s' | None => s end
  | _ => ""
  end.

(** [Field(..., ge=0)] on an [int]. *)
Definition check_ge0 (z : Z) : list reason :=
  if (0 <=? z)%Z then [] else [GreaterThanEqual].

(** [Field(4.8, ge=0, le=5)] on a [float]. *)
Definition check_rating (q : Q) : list reason :=
  if Qle_bool 0 q then
    if Qle_bool q 5 then [] else [LessThanEqual]
  else [GreaterThanEqual].

Definition therapist_errors (r : RawTherapist.t) : list (string * reason) :=
  (field_errors "name" false no_check (RawTherapist.name r) ++
  field_errors "email" false check_email (RawTherapist.email r) ++
  field_errors "bio" true no_check (RawTherapist.bio r) ++
  field_errors "education" true no_check (RawTherapist.education r) ++
  field_errors "specialties" true no_check (RawTherapist.specialties r) ++
  field_errors "experience_years" true check_ge0 (RawTherapist.experience_years r) ++
  field_errors "languages" true no_check (RawTherapist.languages r) ++
  field_errors "gender" true no_check (RawTherapist.gender r) ++
  field_errors "city" true no_check (RawTherapist.city r) ++
  field_errors "price_per_week_inr" true check_ge0 (RawTherapist.price_per_week_inr r) ++
  field_errors "rating" true check_rating (RawTherapist.rating r) ++
  field_errors "photo_url" true no_check (RawTherapist.photo_url r) ++
  field_errors "slots" true no_check (RawTherapist.slots r))%list.

(** The record built from the payload, defaults as declared. *)
Definition therapist_of_raw (r : RawTherapist.t) : Therapist.t :=
  {| Therapist.name := value_or "" (RawTherapist.name r);
     Therapist.email := email_value (RawTherapist.email r);
     Therapist.bio := value_or None (RawTherapist.bio r);
     Therapist.education := value_or None (RawTherapist.education r);
     Therapist.specialties := value_or [] (RawTherapist.specialties r);
     Therapist.experience_years := value_or 0%Z (RawTherapist.experience_years r);
     Therapist.languages := value_or ["English"] (RawTherapist.languages r);
     Therapist.gender := value_or None (RawTherapist.gender r);
     Therapist.city := value_or None (RawTherapist.city r);
     Therapist.price_per_week_inr := value_or 0%Z (RawTherapist.price_per_week_inr r);
     Therapist.rating := value_or (48 # 10)%Q (RawTherapist.rating r);
     Therapist.photo_url := value_or None (RawTherapist.photo_url r);
     Therapist.slots := value_or [] (RawTherapist.slots r) |}.

(** All the errors of the payload are reported together; a record is
    produced only when there is none. *)
Definition validate_therapist (r : RawTherapist.t) : result Therapist.t :=
  match therapist_errors r with
  | [] => Ok (therapist_of_raw r)
  | errs => Raise (RequestValidationError errs)
  end.

End Validation.

(** The members of a body, coerced to the types [class Therapist]
    declares. *)
Definition coerce_therapist (o : list (string * Json.t)) : option RawTherapist.t :=
  match Json.field "name" o Json.as_str with None => None | Some name =>
  match Json.field "email" o Json.as_str with None => None | Some email =>
  match Json.field "bio" o Json.as_opt_str with None => None | Some bio =>
  match Json.field "education" o Json.as_opt_str with None => None | Some education =>
  match Json.field "specialties" o Json.as_str_list with None => None | Some specialties =>
  match Json.field "experience_years" o Json.as_int with None => None | Some experience_years =>
  match Json.field "languages" o Json.as_str_list with None => None | Some languages =>
  match Json.field "gender" o Json.as_opt_str with None => None | Some gender =>
  match Json.field "city" o Json.as_opt_str with None => None | Some city =>
  match Json.field "price_per_week_inr" o Json.as_int with None => None | Some price_per_week_inr =>
  match Json.field "rating" o Json.as_float with None => None | Some rating =>
  match Json.field "photo_url" o Json.as_opt_str with None => None | Some photo_url =>
  match Json.field "slots" o Json.as_str_list with None => None | Some slots =>
  Some (RawTherapist.Build name email bio education specialties experience_years
          languages gender city price_per_week_inr rating photo_url slots)
  end end end end end end end end end end end end end.

(** The body of [POST /api/therapists] against [class Therapist]:
    coercion, then the checks. *)
Definition parse_therapist (normalize_email : string -> option string)
    (o : list (string * Json.t)) : option (result Therapist.t) :=
  option_map (validate_therapist normalize_email) (coerce_therapist o).

(* ================================================================== *)
(** ** Documents and filters of the document store

    The driver is not part of the repository.  Modelled from the spec: "an
    empty filter matches all documents", the conditions of a filter are
    combined with logical AND, and the operators the handlers build are
    equality on a field, [$regex] with [$options], [$in], [$elemMatch] and
    [$or].  A condition on a field that holds a list is satisfied by some
    element of the list. *)

Module Mongo.

(** The value of a field of a stored document. *)
Inductive bson : Type :=
| BNull
| BBool (b : bool)
| BInt (z : Z)
| BDouble (q : Q)
| BDate (d : datetime)
| BStr (s : string)
| BArr (l : list string).

Definition of_opt_str (o : option string) : bson :=
  match o with Some s => BStr s | None => BNull end.

Definition of_opt_date (o : option datetime) : bson :=
  match o with Some d => BDate d | None => BNull end.

(** Conditions as the handlers write them. *)
Inductive cond : Type :=
| Eq (v : string)                        (* {field: v} *)
| Regex (pattern options : string)       (* {"$regex": p, "$options": o} *)
| In (vs : list string)                  (* {"$in": vs} *)
| ElemMatch (c : cond).                  (* {"$elemMatch": c} *)

Inductive clause : Type :=
| Field (name : string) (c : cond)       (* query[name] = c *)
| Or (alternatives : list (string * cond)).  (* query["$or"] = [...] *)

Definition query := list clause.

(** Conditions with their patterns compiled. *)
Inductive ccond : Type :=
| CEq (v : string)
| CRegex (caseless : bool) (r : list Regex.atom)
| CIn (vs : list string)
| CElemMatch (c : ccond).

Inductive cclause : Type :=
| CField (name : string) (c : ccond)
| COr (alternatives : list (string * ccond)).

Fixpoint compile_cond (c : cond) : option ccond :=
  match c with
  | Eq v => Some (CEq v)
  | Regex p o =>
      match Regex.caseless_of o, Regex.compile p with
      | Some i, Some r => Some (CRegex i r)
      | _, _ => None
      end
  | In vs => Some (CIn vs)
  | ElemMatch c' => option_map CElemMatch (compile_cond c')
  end.

Fixpoint compile_alternatives (l : list (string * cond))
  : option (list (string * ccond)) :=
  match l with
  | [] => Some []
  | (f, c) :: l' =>
      match compile_cond c, compile_alternatives l' with
      | Some c', Some r => Some ((f, c') :: r)
      | _, _ => None
      end
  end.

Definition compile_clause (c : clause) : option cclause :=
  match c with
  | Field f c' => option_map (CField f) (compile_cond c')
  | Or alts => option_map COr (compile_alternatives alts)
  end.

Fixpoint compile_query (q : query) : option (list cclause) :=
  match q with
  | [] => Some []
  | c :: q' =>
      match compile_clause c, compile_query q' with
      | Some c', Some r => Some (c' :: r)
      | _, _ => None
      end
  end.

(** A condition against one string. *)
Definition holds_str (c : ccond) (s : string) : bool :=
  match c with
  | CEq v => String.eqb s v
  | CRegex i r => Regex.search i r s
  | CIn vs => Py.mem s vs
  | CElemMatch _ => false
  end.

(** A condition against the value of a field; [None] is an absent
    field. *)
Definition holds (c : ccond) (v : option bson) : bool :=
  match v with
  | Some (BStr s) => holds_str c s
  | Some (BArr l) =>
      match c with
      | CElemMatch c' => existsb (holds_str c') l
      | _ => existsb (holds_str c) l
      end
  | _ => false
  end.

Definition clause_holds (fields : string -> option bson) (c : cclause) : bool :=
  match c with
  | CField f c' => holds c' (fields f)
  | COr alts => existsb (fun fc => holds (snd fc) (fields (fst fc))) alts
  end.

Definition matches (fields : string -> option bson) (q : list cclause) : bool :=
  forallb (clause_holds fields) q.

End Mongo.

(** A stored document: the dump of a schema record and the key the store
    assigned to it. *)
Record doc (A : Type) : Type := Doc {
  _id : N;
  body : A }.

(** [str(ObjectId)]: the key in its public form, an opaque string. *)
Definition str_id (i : N) : string := Py.str_of_N i.

(** The collections, named after the schema classes in lower case. *)
Record Store : Type := MkStore {
  user : list (doc User.t);
  therapist : list (doc Therapist.t);
  review : list (doc Review.t);
  blogpost : list (doc BlogPost.t);
  faq : list (doc FAQ.t);
  contactmessage : list (doc ContactMessage.t);
  session : list (doc Session.t);
  next_id : N }.

Definition empty_store : Store :=
  MkStore [] [] [] [] [] [] [] 0.

(** The fields of the dumps, by name. *)
Module Dump.
Import Mongo.

Definition sel (f : string) (l : list (string * bson)) : option bson :=
  option_map snd (find (fun kv => String.eqb (fst kv) f) l).

Definition user (u : User.t) (f : string) : option bson :=
  sel f [ ("name", BStr (User.name u)); ("email", BStr (User.email u));
          ("password_hash", BStr (User.password_hash u));
          ("phone", of_opt_str (User.phone u));
          ("language", of_opt_str (User.language u));
          ("city", of_opt_str (User.city u));
          ("is_active", BBool (User.is_active u));
          ("role", BStr (User.role u)) ].

Definition therapist (t : Therapist.t) (f : string) : option bson :=
  sel f [ ("name", BStr (Therapist.name t)); ("email", BStr (Therapist.email t));
          ("bio", of_opt_str (Therapist.bio t));
          ("education", of_opt_str (Therapist.education t));
          ("specialties", BArr (Therapist.specialties t));
          ("experience_years", BInt (Therapist.experience_years t));
          ("languages", BArr (Therapist.languages t));
          ("gender", of_opt_str (Therapist.gender t));
          ("city", of_opt_str (Therapist.city t));
          ("price_per_week_inr", BInt (Therapist.price_per_week_inr t));
          ("rating", BDouble (Therapist.rating t));
          ("photo_url", of_opt_str (Therapist.photo_url t));
          ("slots", BArr (Therapist.slots t)) ].

Definition review (r : Review.t) (f : string) : option bson :=
  sel f [ ("user_name", BStr (Review.user_name r)); ("rating", BInt (Review.rating r));
          ("comment", BStr (Review.comment r));
          ("city", of_opt_str (Review.city r));
          ("created_at", of_opt_date (Review.created_at r)) ].

Definition blogpost (p : BlogPost.t) (f : string) : option bson :=
  sel f [ ("title", BStr (BlogPost.title p)); ("slug", BStr (BlogPost.slug p));
          ("excerpt", BStr (BlogPost.excerpt p));
          ("content", BStr (BlogPost.content p));
          ("tags", BArr (BlogPost.tags p));
          ("cover_image", of_opt_str (BlogPost.cover_image p));
          ("published_at", of_opt_date (BlogPost.published_at p)) ].

Definition faq (q : FAQ.t) (f : string) : option bson :=
  sel f [ ("question", BStr (FAQ.question q)); ("answer", BStr (FAQ.answer q));
          ("category", of_opt_str (FAQ.category q)) ].

Definition contactmessage (m : ContactMessage.t) (f : string) : option bson :=
  sel f [ ("name", BStr (ContactMessage.name m)); ("email", BStr (ContactMessage.email m));
          ("subject", BStr (ContactMessage.subject m));
          ("message", BStr (ContactMessage.message m)) ].

Definition session (s : Session.t) (f : string) : option bson :=
  sel f [ ("user_id", BStr (Session.user_id s));
          ("therapist_id", BStr (Session.therapist_id s));
          ("mode", BStr (Session.mode s));
          ("scheduled_for", of_opt_date (Session.scheduled_for s));
          ("status", BStr (Session.status s)) ].
End Dump.

(** A collection of the database: where its documents live in the store
    and how their fields are read. *)
Record Collection (A : Type) : Type := MkCollection {
  col_name : string;
  col_docs : Store -> list (doc A);
  col_set : list (doc A) -> Store -> Store;
  col_fields : A -> string -> option Mongo.bson }.

Definition set_next_id (n : N) (st : Store) : Store :=
  MkStore (user st) (therapist st) (review st) (blogpost st) (faq st)
          (contactmessage st) (session st) n.

Definition c_user : Collection User.t :=
  MkCollection "user" user
    (fun l st => MkStore l (therapist st) (review st) (blogpost st) (faq st)
                         (contactmessage st) (session st) (next_id st))
    Dump.user.

Definition c_therapist : Collection Therapist.t :=
  MkCollection "therapist" therapist
    (fun l st => MkStore (user st) l (review st) (blogpost st) (faq st)
                         (contactmessage st) (session st) (next_id st))
    Dump.therapist.

Definition c_review : Collection Review.t :=
  MkCollection "review" review
    (fun l st => MkStore (user st) (therapist st) l (blogpost st) (faq st)
                         (contactmessage st) (session st) (next_id st))
    Dump.review.

Definition c_blogpost : Collection BlogPost.t :=
  MkCollection "blogpost" blogpost
    (fun l st => MkStore (user st) (therapist st) (review st) l (faq st)
                         (contactmessage st) (session st) (next_id st))
    Dump.blogpost.

Definition c_faq : Collection FAQ.t :=
  MkCollection "faq" faq
    (fun l st => MkStore (user st) (therapist st) (review st) (blogpost st) l
                         (contactmessage st) (session st) (next_id st))
    Dump.faq.

Definition c_contactmessage : Collection ContactMessage.t :=
  MkCollection "contactmessage" contactmessage
    (fun l st => MkStore (user st) (therapist st) (review st) (blogpost st) (faq st)
                         l (session st) (next_id st))
    Dump.contactmessage.

Definition c_session : Collection Session.t :=
  MkCollection "session" session
    (fun l st => MkStore (user st) (therapist st) (review st) (blogpost st) (faq st)
                         (contactmessage st) l (next_id st))
    Dump.session.

(* ================================================================== *)
(** ** The handler monad *)

(** The global [db] of the [database] module. *)
Definition Handle := option Store.

(** A handler run against the handle: [None] when a filter falls outside
    the modelled pattern fragment, otherwise the value returned or the
    exception raised, and the handle afterwards. *)
Definition M (A : Type) : Type := Handle -> option (result A * Handle).

Definition ret {A} (a : A) : M A := fun db => Some (Ok a, db).

Definition raise {A} (e : exn) : M A := fun db => Some (Raise e, db).

Definition bind {A B} (m : M A) (f : A -> M B) : M B :=
  fun db =>
    match m db with
    | Some (Ok a, db') => f a db'
    | Some (Raise e, db') => Some (Raise e, db')
    | None => None
    end.

Definition get_db : M Handle := fun db => Some (Ok db, db).

Definition put_store (st : Store) : M unit := fun _ => Some (Ok tt, Some st).

Definition lift {A} (o : option A) : M A :=
  fun db => match o with Some a => Some (Ok a, db) | None => None end.

Declare Scope handler_scope.
Delimit Scope handler_scope with handler.
Notation "x <- m ;; k" := (bind m (fun x => k))
  (at level 100, m at next level, right associativity) : handler_scope.
Notation "m ;;; k" := (bind m (fun _ => k))
  (at level 100, right associativity) : handler_scope.
Local Open Scope handler_scope.

(* ================================================================== *)
(** ** Driver operations on a live database *)

(** [db[c].find(query)]: the matching documents in the store's order. *)
Definition find {A} (c : Collection A) (q : Mongo.query) (st : Store)
  : option (list (doc A)) :=
  option_map
    (fun cq => filter (fun d => Mongo.matches (col_fields c (body d)) cq) (col_docs c st))
    (Mongo.compile_query q).

(** [cursor.limit(n)] for a positive [n]. *)
Definition limit {A} (n : nat) (l : list A) : list A := firstn n l.

(** [db[c].find_one(query)]: the first matching document, if any. *)
Definition find_one {A} (c : Collection A) (q : Mongo.query) (st : Store)
  : option (option (doc A)) :=
  option_map (@hd_error _) (find c q st).

(** [db[c].insert_one(data)]: the document is appended under a fresh key. *)
Definition insert_one {A} (c : Collection A) (data : A) (st : Store) : N * Store :=
  let i := next_id st in
  (i, set_next_id (i + 1) (col_set c (col_docs c st ++ [Doc i data])%list st)).

(* ================================================================== *)
(** ** The store gateway ([database.py], absent from the sources) *)

(** Modelled from the spec: [create_document] of the missing [database]
    module.  "insert(collectionName, record) -> identifier: serializes the
    validated record, writes it as a new document, returns the
    store-assigned unique identifier as an opaque string. Never fails on
    duplicate content; fails with StoreUnavailable if no store connection
    exists." *)
Definition create_document {A} (c : Collection A) (data : A) : M string :=
  db <- get_db ;;
  match db with
  | None => raise GatewayError
  | Some st =>
      let (i, st') := insert_one c data st in
      put_store st' ;;; ret (str_id i)
  end.

(** Modelled from the spec: [get_documents] of the missing [database]
    module.  "find(collectionName, filter, limit) -> sequence of records:
    returns up to limit documents matching filter, in store-native order;
    an empty filter matches all documents in the collection", and "every
    gateway operation fails with StoreUnavailable" without a connection. *)
Definition get_documents {A} (c : Collection A) (q : Mongo.query) (n : nat)
  : M (list (doc A)) :=
  db <- get_db ;;
  match db with
  | None => raise GatewayError
  | Some st => found <- lift (find c q st) ;; ret (limit n found)
  end.

(* ================================================================== *)
(** ** Responses *)

(** [{"id": ..., "name": ..., "email": ...}] of signup and login. *)
Module Account.
Record t : Type := Build {
  id : string;
  name : string;
  email : string }.
End Account.

(** A document as sent to the client: the key [_id] is popped and its
    string form is set under [id]. *)
Module Item.
Record t (A : Type) : Type := Build {
  id : string;
  fields : A }.
End Item.

Definition publish {A} (d : doc A) : Item.t A :=
  Item.Build (str_id (_id d)) (body d).

(** One entry of the answer of the matching endpoint. *)
Module Match.
Record t : Type := Build {
  id : string;
  name : string;
  languages : list string;
  specialties : list string;
  city : option string;
  rating : Q;
  price_per_week_inr : Z;
  photo_url : option string }.
End Match.

(* ================================================================== *)
(** ** Handlers ([src/main.py]) *)

(** [[clause] if param else []] for an [Optional[str]] parameter. *)
Definition when_set (param : option string) (c : string -> Mongo.clause)
  : Mongo.query :=
  match param with
  | Some s => if Py.truthy param then [c s] else []
  | None => []
  end.

Definition read_root : M string := ret "BetterMann API running".

(** The truth value of the handle, as [if db] asks for it. *)
Definition truth (db : Handle) : M bool :=
  match db with
  | None => ret false
  | Some _ => raise NotImplementedError
  end.

(** [db[name]]: the collections of a live database. *)
Definition subscript (db : Handle) : M Store :=
  match db with
  | Some st => ret st
  | None => raise TypeError
  end.

Definition signup (req : SignupRequest.t) : M Account.t :=
  db <- get_db ;;
  live <- truth db ;;
  existing <- (if live then
                 st <- subscript db ;;
                 lift (find_one c_user
                         [Mongo.Field "email" (Mongo.Eq (SignupRequest.email req))] st)
               else ret None) ;;
  match existing with
  | Some _ => raise (HTTPException 400 "Email already registered")
  | None =>
      let user :=
        {| User.name := SignupRequest.name req;
           User.email := SignupRequest.email req;
           User.password_hash := "hash:" ++ SignupRequest.password req;
           User.phone := None;
           User.language := SignupRequest.language req;
           User.city := None;
           User.is_active := true;
           User.role := "user" |} in
      user_id <- create_document c_user user ;;
      ret (Account.Build user_id (User.name user) (User.email user))
  end.

(** A stored user is the dump of a [User], so [u.get("password_hash", "")]
    finds the field and [str] leaves it as it is.  The lookup is guarded by
    [if db]. *)
Definition login (req : LoginRequest.t) : M Account.t :=
  db <- get_db ;;
  live <- truth db ;;
  u <- (if live then
          st <- subscript db ;;
          lift (find_one c_user
                  [Mongo.Field "email" (Mongo.Eq (LoginRequest.email req))] st)
        else ret None) ;;
  match u with
  | None => raise (HTTPException 404 "User not found")
  | Some u =>
      if negb (Py.endswith (User.password_hash (body u)) (LoginRequest.password req))
      then raise (HTTPException 401 "Invalid credentials")
      else ret (Account.Build (str_id (_id u)) (User.name (body u)) (User.email (body u)))
  end.

Definition therapists_query (language city q : option string) : Mongo.query :=
  (when_set language (fun l => Mongo.Field "languages" (Mongo.Regex l "i")) ++
   when_set city (fun c => Mongo.Field "city" (Mongo.Regex c "i")) ++
   when_set q (fun s =>
     Mongo.Or [ ("name", Mongo.Regex s "i");
                ("specialties", Mongo.ElemMatch (Mongo.Regex s "i")) ]))%list.

Definition list_therapists (language city q : option string)
  : M (list (Item.t Therapist.t)) :=
  db <- get_db ;;
  match db with
  | None => raise (HTTPException 500 "Database not available")
  | Some _ =>
      items <- get_documents c_therapist (therapists_query language city q) 50 ;;
      ret (map publish items)
  end.

Definition add_therapist (data : Therapist.t) : M string :=
  tid <- create_document c_therapist data ;;
  ret tid.

Definition match_query (req : MatchRequest.t) : Mongo.query :=
  (when_set (MatchRequest.language req)
     (fun l => Mongo.Field "languages" (Mongo.Regex l "i")) ++
   when_set (MatchRequest.city req)
     (fun c => Mongo.Field "city" (Mongo.Regex c "i")) ++
   (if Py.truthy_list (MatchRequest.concerns req)
    then [Mongo.Field "specialties" (Mongo.In (MatchRequest.concerns req))]
    else []))%list.

Definition match_entry (t : doc Therapist.t) : Match.t :=
  {| Match.id := str_id (_id t);
     Match.name := Therapist.name (body t);
     Match.languages := Therapist.languages (body t);
     Match.specialties := Therapist.specialties (body t);
     Match.city := Therapist.city (body t);
     Match.rating := Therapist.rating (body t);
     Match.price_per_week_inr := Therapist.price_per_week_inr (body t);
     Match.photo_url := Therapist.photo_url (body t) |}.

(** The handler [match] of the source ([match] is a keyword here). *)
Definition match_ (req : MatchRequest.t) : M (list Match.t) :=
  db <- get_db ;;
  match db with
  | None => raise (HTTPException 500 "Database not available")
  | Some st =>
      found <- lift (find c_therapist (match_query req) st) ;;
      let therapists := limit 10 found in
      ret (map match_entry therapists)
  end.

Definition plans : M (list Plan.t) :=
  let data :=
    [ Plan.Build "Starter" 799 "per week" ["Unlimited chat"; "1 live session"];
      Plan.Build "Standard" 1399 "per week"
        ["Unlimited chat"; "2 live sessions"; "Priority support"];
      Plan.Build "Premium" 2199 "per week"
        ["Unlimited chat"; "4 live sessions"; "Dedicated care manager"] ] in
  ret data.

Definition reviews : M (list (Item.t Review.t)) :=
  db <- get_db ;;
  live <- truth db ;;
  items <- (if live then get_documents c_review [] 50 else ret []) ;;
  ret (map publish items).

Definition add_review (data : Review.t) : M string :=
  rid <- create_document c_review data ;;
  ret rid.

Definition blog_query (tag : option string) : Mongo.query :=
  when_set tag (fun t => Mongo.Field "tags" (Mongo.Eq t)).

Definition blog_list (tag : option string) : M (list (Item.t BlogPost.t)) :=
  let query := blog_query tag in
  db <- get_db ;;
  live <- truth db ;;
  items <- (if live then get_documents c_blogpost query 50 else ret []) ;;
  ret (map publish items).

Definition add_blog (post : BlogPost.t) : M string :=
  bid <- create_document c_blogpost post ;;
  ret bid.

Definition blog_detail (slug : string) : M (Item.t BlogPost.t) :=
  db <- get_db ;;
  live <- truth db ;;
  post <- (if live then
             st <- subscript db ;;
             lift (find_one c_blogpost [Mongo.Field "slug" (Mongo.Eq slug)] st)
           else ret None) ;;
  match post with
  | None => raise (HTTPException 404 "Not found")
  | Some post => ret (publish post)
  end.

Definition faq_list : M (list (Item.t FAQ.t)) :=
  db <- get_db ;;
  live <- truth db ;;
  items <- (if live then get_documents c_faq [] 100 else ret []) ;;
  ret (map publish items).

Definition add_faq (item : FAQ.t) : M string :=
  fid <- create_document c_faq item ;;
  ret fid.

Definition contact (msg : ContactMessage.t) : M (string * string) :=
  cid <- create_document c_contactmessage msg ;;
  ret (cid, "received").

Definition create_session (s : Session.t) : M string :=
  sid <- create_document c_session s ;;
  ret sid.

(* ================================================================== *)
(** ** Requests that write, and the states they reach *)

Section Service.

Variable normalize_email : string -> option string.

(** [POST /api/therapists]: the body is validated against
    [class Therapist], then handed to [add_therapist]. *)
Definition post_therapists (payload : list (string * Json.t)) : M string :=
  parsed <- lift (parse_therapist normalize_email payload) ;;
  match parsed with
  | Ok data => add_therapist data
  | Raise e => raise e
  end.

(** The endpoints that write to the store.  The bodies of the others are
    taken after validation. *)
Inductive write : Type :=
| PostSignup (req : SignupRequest.t)
| PostTherapist (payload : list (string * Json.t))
| PostReview (data : Review.t)
| PostBlog (post : BlogPost.t)
| PostFaq (item : FAQ.t)
| PostContact (msg : ContactMessage.t)
| PostSession (s : Session.t).

Definition discard {A} (m : M A) : M unit := _ <- m ;; ret tt.

Definition serve (w : write) : M unit :=
  match w with
  | PostSignup req => discard (signup req)
  | PostTherapist payload => discard (post_therapists payload)
  | PostReview data => discard (add_review data)
  | PostBlog post => discard (add_blog post)
  | PostFaq item => discard (add_faq item)
  | PostContact msg => discard (contact msg)
  | PostSession s => discard (create_session s)
  end.

(** The stores obtained from the empty database by a sequence of
    requests served one after the other. *)
Inductive reachable : Store -> Prop :=
| reach_empty : reachable empty_store
| reach_serve st w r st' :
    reachable st ->
    serve w (Some st) = Some (r, Some st') ->
    reachable st'.

End Service.

(** The invariants of the data model. *)
Definition unique_emails (st : Store) : Prop :=
  NoDup (map (fun d => User.email (body d)) (user st)).


(* ================================================================== *)
(** ** The vocabulary of the specification *)

(** The handler raises an error of kind [k] and leaves the handle as it
    was. *)
Definition fails {A} (k : kind) (m : M A) (db : Handle) : Prop :=
  exists e, m db = Some (Raise e, db) /\ kind_of e = Some k.

(** The store after [data] has been written to collection [c]. *)
Definition stored {A} (c : Collection A) (data : A) (st : Store) : Store :=
  snd (insert_one c data st).

(** The ways a Therapist payload can be at fault: a bound is violated, a
    required field is absent, or a field has the wrong type.  Each names
    the field and the reason. *)
Inductive offence (p : RawTherapist.t) : string -> reason -> Prop :=
| rating_below q :
    RawTherapist.rating p = Given q -> (q < 0)%Q ->
    offence p "rating" GreaterThanEqual
| rating_above q :
    RawTherapist.rating p = Given q -> (5 < q)%Q ->
    offence p "rating" LessThanEqual
| experience_below z :
    RawTherapist.experience_years p = Given z -> (z < 0)%Z ->
    offence p "experience_years" GreaterThanEqual
| price_below z :
    RawTherapist.price_per_week_inr p = Given z -> (z < 0)%Z ->
    offence p "price_per_week_inr" GreaterThanEqual
| name_missing :
    RawTherapist.name p = Missing -> offence p "name" Required
| email_missing :
    RawTherapist.email p = Missing -> offence p "email" Required
| name_type : RawTherapist.name p = Malformed -> offence p "name" WrongType
| email_type : RawTherapist.email p = Malformed -> offence p "email" WrongType
| bio_type : RawTherapist.bio p = Malformed -> offence p "bio" WrongType
| education_type :
    RawTherapist.education p = Malformed -> offence p "education" WrongType
| specialties_type :
    RawTherapist.specialties p = Malformed -> offence p "specialties" WrongType
| experience_type :
    RawTherapist.experience_years p = Malformed ->
    offence p "experience_years" WrongType
| languages_type :
    RawTherapist.languages p = Malformed -> offence p "languages" WrongType
| gender_type : RawTherapist.gender p = Malformed -> offence p "gender" WrongType
| city_type : RawTherapist.city p = Malformed -> offence p "city" WrongType
| price_type :
    RawTherapist.price_per_week_inr p = Malformed ->
    offence p "price_per_week_inr" WrongType
| rating_type : RawTherapist.rating p = Malformed -> offence p "rating" WrongType
| photo_type :
    RawTherapist.photo_url p = Malformed -> offence p "photo_url" WrongType
| slots_type : RawTherapist.slots p = Malformed -> offence p "slots" WrongType.


(** The constraint of a present directory parameter on a list field and
    on an optional text field, in the specification's reading. *)
Definition some_contains_ci (param : string) (l : list string) : bool :=
  existsb (Regex.contains_ci param) l.

Definition opt_contains_ci (param : string) (o : option string) : bool :=
  match o with Some s => Regex.contains_ci param s | None => false end.

Definition unless_absent (param : option string) (test : string -> bool) : bool :=
  match param with
  | Some s => if String.eqb s "" then true else test s
  | None => true
  end.

(** Directory listing: the records selected by [language], [city], [q]. *)
Definition directory_selects (language city q : option string)
    (t : Therapist.t) : bool :=
  unless_absent language (fun l => some_contains_ci l (Therapist.languages t)) &&
  unless_absent city (fun c => opt_contains_ci c (Therapist.city t)) &&
  unless_absent q (fun s =>
    Regex.contains_ci s (Therapist.name t) ||
    some_contains_ci s (Therapist.specialties t)).









(** A case-insensitive containment test against the value of a field. *)
Definition ci_holds (param : string) (v : option Mongo.bson) : bool :=
  match v with
  | Some (Mongo.BStr s) => Regex.contains_ci param s
  | Some (Mongo.BArr l) => existsb (Regex.contains_ci param) l
  | _ => false
  end.

(** A parameter that is absent, empty, or free of metacharacters. *)
Definition plain (param : option string) : bool :=
  match param with Some s => Regex.literal s | None => true end.











(** An integer that fits the 8 bytes the store gives an integer. *)
Definition fits_int64 (z : Z) : Prop := (- 2 ^ 63 <= z < 2 ^ 63)%Z.

(** The handler leaves the handle as it found it, whatever it answers. *)
Definition preserves {A} (m : M A) : Prop :=
  forall db, match m db with
             | Some (_, db') => db' = db
             | None => True
             end.

(** What the client sees of a run: the value or the exception. *)
Definition answer {A} (m : M A) (db : Handle) : option (result A) :=
  option_map fst (m db).

(** A match entry computed from a directory item. *)
Definition entry_of_item (it : Item.t Therapist.t) : Match.t :=
  {| Match.id := Item.id it;
     Match.name := Therapist.name (Item.fields it);
     Match.languages := Therapist.languages (Item.fields it);
     Match.specialties := Therapist.specialties (Item.fields it);
     Match.city := Therapist.city (Item.fields it);
     Match.rating := Therapist.rating (Item.fields it);
     Match.price_per_week_inr := Therapist.price_per_week_inr (Item.fields it);
     Match.photo_url := Therapist.photo_url (Item.fields it) |}.

(** Two parameters that differ at most in the case of their letters. *)
Definition same_letters (a b : option string) : Prop :=
  option_map Regex.lower_string a = option_map Regex.lower_string b.


(** The Therapist body that gives only a name and an email. *)
Definition bare_body (name email : string) : list (string * Json.t) :=
  [("name", Json.Str name); ("email", Json.Str email)].

(* ================================================================== *)
(** ** Validation of a Review payload

    [class Review] of [src/schemas.py]: [user_name], [rating] and
    [comment] are required, [rating] is an [int] with [ge=1, le=5], [city]
    and [created_at] default to [None]. *)

Module RawReview.
Record t : Type := Build {
  user_name : raw string;
  rating : raw Z;
  comment : raw string;
  city : raw (option string);
  created_at : raw (option datetime) }.
End RawReview.









(* ================================================================== *)
(** ** Sample data *)

Module Sample.

(** A stand-in for [EmailStr]: an address needs an [@], and what follows
    it is put in lower case. *)
Fixpoint lower_domain (s : string) (after : bool) : string :=
  match s with
  | EmptyString => EmptyString
  | String c s' =>
      String (if after then Regex.lower c else c)
             (lower_domain s' (after || Ascii.eqb c "@"))
  end.

Definition normalize (s : string) : option string :=
  if Py.contains s "@" then Some (lower_domain s false) else None.

Definition in_city (c : string) : Therapist.t :=
  Therapist.Build "Asha Nair" "asha@example.in" None None
    ["anxiety"; "student stress"] 6 ["English"; "Hindi"] None (Some c) 1200
    (47 # 10)%Q None ["Mon 7pm"].

Definition two_cities : Store :=
  MkStore [] [Doc 0 (in_city "Bangalore"); Doc 1 (in_city "Delhi")]
          [] [] [] [] [] 2.

(** Sixty therapists of Bangalore, then one of Delhi. *)
Definition sixty : Store :=
  MkStore []
    (map (fun i => Doc (N.of_nat i) (in_city "Bangalore")) (seq 0 60)
     ++ [Doc 60 (in_city "Delhi")])
    [] [] [] [] [] 61.

(** A body whose members have the declared types. *)
Definition typed : list (string * Json.t) :=
  [ ("name", Json.Str "Asha Nair"); ("email", Json.Str "Asha@Example.IN");
    ("specialties", Json.Arr [Json.Str "anxiety"]);
    ("experience_years", Json.Int 6); ("city", Json.Str "Bangalore");
    ("price_per_week_inr", Json.Int 1200); ("rating", Json.Float (47 # 10)%Q) ].




Definition review (stars : Json.t) : list (string * Json.t) :=
  [ ("user_name", Json.Str "Kiran"); ("rating", stars);
    ("comment", Json.Str "Helpful sessions") ].

End Sample.

(* ================================================================== *)
(** * Properties *)

(** ** Strings *)

Lemma endswith_unfold (s p : string) :
  Py.endswith s p =
  if String.eqb s p then true
  else match s with
       | EmptyString => false
       | String _ s' => Py.endswith s' p
       end.
Proof. destruct s; reflexivity. Qed.

Lemma endswith_empty (s : string) : Py.endswith s "" = true.
Proof.
  induction s as [|c s IH]; rewrite endswith_unfold; auto.
Qed.

Lemma startswith_spec (s p : string) :
  Py.startswith s p = true <-> exists post, s = p ++ post.
Proof.
  revert s. induction p as [|a p IH]; intros s; simpl.
  - split; [intros _; now exists s | now destruct s].
  - destruct s as [|b s]; simpl.
    + split; [discriminate | intros [post H]; discriminate].
    + rewrite andb_true_iff, Ascii.eqb_eq, IH. split.
      * intros [-> [post ->]]. now exists post.
      * intros [post H]. injection H as -> ->. split; [reflexivity | now exists post].
Qed.

Lemma contains_spec (hay needle : string) :
  Py.contains hay needle = true <-> exists pre post, hay = pre ++ needle ++ post.
Proof.
  induction hay as [|c hay IH].
  - cbn [Py.contains]. rewrite orb_false_r, startswith_spec. split.
    + intros [post H]. now exists "", post.
    + intros [pre [post H]]. destruct pre; [now exists post | discriminate].
  - cbn [Py.contains]. rewrite orb_true_iff, startswith_spec, IH. split.
    + intros [[post H] | [pre [post H]]].
      * now exists "", post.
      * exists (String c pre), post. simpl. now rewrite H.
    + intros [pre [post H]]. destruct pre as [|c' pre]; simpl in H.
      * left. now exists post.
      * right. injection H as _ H. now exists pre, post.
Qed.

Lemma contains_ci_spec (param field : string) :
  Regex.contains_ci param field = true <-> Regex.ci_substring param field.
Proof.
  unfold Regex.contains_ci, Regex.ci_substring. apply contains_spec.
Qed.

(** ** Patterns without metacharacters search for a substring *)

Lemma compile_literal_char (c : ascii) :
  Regex.literal_char c = true -> Regex.compile_char c = Some (Regex.Lit c).
Proof.
  unfold Regex.literal_char, Regex.compile_char. intros H.
  apply andb_true_iff in H. destruct H as [Hm Hc].
  apply negb_true_iff in Hm. apply N.ltb_lt in Hc.
  destruct (Ascii.eqb c ".") eqn:E.
  - apply Ascii.eqb_eq in E. subst c. discriminate Hm.
  - rewrite Hm. simpl. destruct (N.leb_spec 128 (Regex.code c)); [lia | reflexivity].
Qed.

Lemma match_here_literal (p : string) :
  Regex.literal p = true ->
  exists r, Regex.compile p = Some r /\
    forall s, Regex.match_here true r s
              = Py.startswith (Regex.lower_string s) (Regex.lower_string p).
Proof.
  induction p as [|c p IH]; simpl; intros H.
  - exists []. split; [reflexivity | now intros []].
  - apply andb_true_iff in H. destruct H as [Hc Hp].
    destruct (IH Hp) as [r [Hr Hm]].
    exists (Regex.Lit c :: r). rewrite (compile_literal_char _ Hc), Hr.
    split; [reflexivity|]. intros [|x s]; simpl; [reflexivity|].
    now rewrite Hm.
Qed.

Lemma search_literal (p : string) :
  Regex.literal p = true ->
  exists r, Regex.compile p = Some r /\
    forall s, Regex.search true r s = Regex.contains_ci p s.
Proof.
  intros H. destruct (match_here_literal _ H) as [r [Hr Hm]].
  exists r. split; [exact Hr|]. unfold Regex.contains_ci.
  induction s as [|x s IH].
  - simpl Regex.search. rewrite Hm. reflexivity.
  - cbn [Regex.search Regex.lower_string Py.contains]. now rewrite Hm, IH.
Qed.

(** ** Lists *)

Lemma existsb_pointwise {A} (f g : A -> bool) (l : list A) :
  (forall x, f x = g x) -> existsb f l = existsb g l.
Proof.
  intros H. induction l as [|x l IH]; simpl; [reflexivity|].
  now rewrite H, IH.
Qed.

Lemma filter_pointwise {A} (f g : A -> bool) (l : list A) :
  (forall x, f x = g x) -> filter f l = filter g l.
Proof.
  intros H. induction l as [|x l IH]; simpl; [reflexivity|].
  now rewrite H, IH.
Qed.



Lemma In_firstn {A} (n : nat) (l : list A) (x : A) :
  In x (firstn n l) -> In x l.
Proof.
  revert l. induction n as [|n IH]; intros [|y l]; simpl; try tauto.
  intros [-> | H]; [now left | right; now apply IH].
Qed.

Lemma In_firstn_filter {A} (n : nat) (f : A -> bool) (l : list A) (x : A) :
  In x (firstn n (filter f l)) -> In x l.
Proof.
  intros H. apply In_firstn in H. now apply filter_In in H.
Qed.

Lemma In_firstn_snoc {A} (n : nat) (l : list A) (x : A) :
  length l < n -> firstn n (l ++ [x]) = (l ++ [x])%list.
Proof.
  intros H. apply firstn_all2. rewrite length_app. simpl. lia.
Qed.

(** ** The handlers behind [if db] *)

(** C2.  The claim fails on the code: on a live store login never reaches
    the lookup.  The test [if db] asks the database handle for its truth
    value, which raises [NotImplementedError], so neither NotFound nor
    InvalidCredentials nor an account is answered; without a store login
    answers 404. *)
Theorem login_raises_on_live_store (req : LoginRequest.t) (st : Store) :
  login req (Some st) = Some (Raise NotImplementedError, Some st) /\
  login req None = Some (Raise (HTTPException 404 "User not found"), None).
Proof. split; reflexivity. Qed.

(** C3.  The claim fails on the code: on a live store signup raises
    [NotImplementedError] at [if db], before the duplicate lookup, and
    stores nothing; without a store it fails in the gateway. *)
Theorem signup_raises_on_live_store (req : SignupRequest.t) (st : Store) :
  signup req (Some st) = Some (Raise NotImplementedError, Some st) /\
  signup req None = Some (Raise GatewayError, None).
Proof. split; reflexivity. Qed.


(** C9.  The claim fails on the code: the suffix check does accept the
    empty password for every stored password field, but it is never
    reached; a login with a stored user's email and the empty password
    raises [NotImplementedError] on the live store that holds the user. *)
Theorem empty_password_login_raises (st : Store) (u : doc User.t) :
  Py.endswith (User.password_hash (body u)) "" = true /\
  login (LoginRequest.Build (User.email (body u)) "") (Some st)
  = Some (Raise NotImplementedError, Some st).
Proof. split; [apply endswith_empty | reflexivity]. Qed.


(** ** Plans *)

(** C8.  Whatever the handle (a live store in any state, or none), the
    plans endpoint answers the same three entries, Starter/799,
    Standard/1399 and Premium/2199, each "per week", and leaves the handle
    untouched. *)
Theorem plans_fixed (db : Handle) :
  exists items,
    plans db = Some (Ok items, db) /\
    length items = 3 /\
    map (fun p => (Plan.name p, Plan.price_inr p, Plan.period p)) items
    = [ ("Starter", 799%Z, "per week");
        ("Standard", 1399%Z, "per week");
        ("Premium", 2199%Z, "per week") ].
Proof.
  eexists. split; [reflexivity|]. split; reflexivity.
Qed.

(** ** Without a store *)

(** C1, as stated, fails: without a store the reviews listing answers an
    empty list, which is a normal result and not a StoreUnavailable
    failure. *)
Lemma reviews_without_store :
  reviews None = Some (Ok [], None) /\
  ~ fails StoreUnavailable reviews None.
Proof.
  split; [reflexivity|].
  intros (e & H & _). discriminate H.
Qed.

(** C1, amended.  With the store uninitialised: the therapist listing and
    the matching endpoint fail with StoreUnavailable (500); signup fails
    with StoreUnavailable when it reaches the gateway; the reviews, blog
    and FAQ listings answer an empty list; blog detail and login fail with
    NotFound (404). *)
Theorem endpoints_without_store :
  (forall language city q,
     list_therapists language city q None
     = Some (Raise (HTTPException 500 "Database not available"), None) /\
     fails StoreUnavailable (list_therapists language city q) None) /\
  (forall req,
     match_ req None
     = Some (Raise (HTTPException 500 "Database not available"), None) /\
     fails StoreUnavailable (match_ req) None) /\
  (forall req,
     signup req None = Some (Raise GatewayError, None) /\
     fails StoreUnavailable (signup req) None) /\
  reviews None = Some (Ok [], None) /\
  (forall tag, blog_list tag None = Some (Ok [], None)) /\
  faq_list None = Some (Ok [], None) /\
  (forall slug,
     blog_detail slug None = Some (Raise (HTTPException 404 "Not found"), None) /\
     fails NotFound (blog_detail slug) None) /\
  (forall req,
     login req None = Some (Raise (HTTPException 404 "User not found"), None) /\
     fails NotFound (login req) None).
Proof.
  repeat split; try reflexivity.
  - now exists (HTTPException 500 "Database not available").
  - now exists (HTTPException 500 "Database not available").
  - now exists GatewayError.
  - now exists (HTTPException 404 "Not found").
  - now exists (HTTPException 404 "User not found").
Qed.

(** ** Validation of therapists *)





(** What [POST /api/therapists] computes, in one equation. *)
Lemma post_therapists_eq (normalize_email : string -> option string)
    (o : list (string * Json.t)) (db : Handle) :
  post_therapists normalize_email o db =
  match coerce_therapist o with
  | None => None
  | Some p =>
      match validate_therapist normalize_email p with
      | Ok data => add_therapist data db
      | Raise e => Some (Raise e, db)
      end
  end.
Proof.
  unfold post_therapists, parse_therapist, bind, lift.
  destruct (coerce_therapist o) as [p|]; [|reflexivity]. cbn.
  now destruct (validate_therapist normalize_email p).
Qed.

Lemma add_therapist_live (data : Therapist.t) (st : Store) :
  add_therapist data (Some st)
  = Some (Ok (str_id (next_id st)), Some (stored c_therapist data st)).
Proof. reflexivity. Qed.

(** ** Invariants of the reachable stores *)

Section Reachable.

Variable normalize_email : string -> option string.

(** A served request leaves the store as it was, or stores a validated
    therapist, or touches neither users nor therapists. *)
Lemma serve_inv (w : write) (st st' : Store) (r : result unit) :
  serve normalize_email w (Some st) = Some (r, Some st') ->
  st' = st \/
  (exists p data,
      validate_therapist normalize_email p = Ok data /\
      st' = stored c_therapist data st) \/
  (user st' = user st /\ therapist st' = therapist st).
Proof.
  destruct w; unfold serve, discard; intros H.
  - injection H as _ <-. now left.
  - unfold bind in H. rewrite post_therapists_eq in H.
    destruct (coerce_therapist payload) as [p|]; [|discriminate].
    destruct (validate_therapist normalize_email p) as [data|e] eqn:E.
    + rewrite add_therapist_live in H. injection H as _ <-.
      right. left. now exists p, data.
    + injection H as _ <-. now left.
  - injection H as _ <-. now repeat right.
  - injection H as _ <-. now repeat right.
  - injection H as _ <-. now repeat right.
  - injection H as _ <-. now repeat right.
  - injection H as _ <-. now repeat right.
Qed.


Lemma reachable_users (st : Store) :
  reachable normalize_email st -> user st = [].
Proof.
  induction 1 as [|st w r st' _ IH Hs]; [reflexivity|].
  destruct (serve_inv _ _ Hs) as [-> | [(p & t & _ & ->) | [Hu _]]].
  - exact IH.
  - exact IH.
  - now rewrite Hu.
Qed.

End Reachable.




(** ** Filters compiled from the parameters *)

Lemma compile_query_app (a b : Mongo.query) :
  Mongo.compile_query (a ++ b)%list =
  match Mongo.compile_query a, Mongo.compile_query b with
  | Some x, Some y => Some (x ++ y)%list
  | _, _ => None
  end.
Proof.
  induction a as [|c a IH]; simpl.
  - now destruct (Mongo.compile_query b).
  - rewrite IH. destruct (Mongo.compile_clause c); [|reflexivity].
    destruct (Mongo.compile_query a); [|reflexivity].
    now destruct (Mongo.compile_query b).
Qed.

Lemma matches_app (fields : string -> option Mongo.bson) (x y : list Mongo.cclause) :
  Mongo.matches fields (x ++ y)%list
  = Mongo.matches fields x && Mongo.matches fields y.
Proof. apply forallb_app. Qed.

Lemma holds_regex_literal (r : list Regex.atom) (p : string)
    (v : option Mongo.bson) :
  (forall s, Regex.search true r s = Regex.contains_ci p s) ->
  Mongo.holds (Mongo.CRegex true r) v = ci_holds p v.
Proof.
  intros H. destruct v as [[]|]; simpl; auto.
  now apply existsb_pointwise.
Qed.

(** A field clause built from a plain parameter. *)
Lemma compile_field_clause (f : string) (param : option string) :
  plain param = true ->
  exists cq,
    Mongo.compile_query
      (when_set param (fun l => Mongo.Field f (Mongo.Regex l "i"))) = Some cq /\
    forall fields,
      Mongo.matches fields cq
      = unless_absent param (fun l => ci_holds l (fields f)).
Proof.
  destruct param as [s|]; simpl; intros Hp.
  - destruct (String.eqb s "") eqn:E; simpl.
    + exists []. now split.
    + destruct (search_literal _ Hp) as (r & Hr & Hs).
      exists [Mongo.CField f (Mongo.CRegex true r)]. rewrite Hr. split; [reflexivity|].
      intros fields. simpl. rewrite andb_true_r. now apply holds_regex_literal.
  - exists []. now split.
Qed.

(** The [$or] clause built from a plain free-text parameter. *)
Lemma compile_or_clause (param : option string) :
  plain param = true ->
  exists cq,
    Mongo.compile_query
      (when_set param (fun s =>
         Mongo.Or [ ("name", Mongo.Regex s "i");
                    ("specialties", Mongo.ElemMatch (Mongo.Regex s "i")) ]))
    = Some cq /\
    forall t,
      Mongo.matches (Dump.therapist t) cq
      = unless_absent param (fun s =>
          Regex.contains_ci s (Therapist.name t) ||
          some_contains_ci s (Therapist.specialties t)).
Proof.
  destruct param as [s|]; simpl; intros Hp.
  - destruct (String.eqb s "") eqn:E; simpl.
    + exists []. now split.
    + destruct (search_literal _ Hp) as (r & Hr & Hs).
      exists [Mongo.COr [ ("name", Mongo.CRegex true r);
                          ("specialties", Mongo.CElemMatch (Mongo.CRegex true r)) ]].
      rewrite Hr. split; [reflexivity|].
      intros t. cbn. rewrite Hs, orb_false_r, andb_true_r. f_equal.
      now apply existsb_pointwise.
  - exists []. now split.
Qed.

Lemma therapist_languages_ci (l : string) (t : Therapist.t) :
  ci_holds l (Dump.therapist t "languages")
  = some_contains_ci l (Therapist.languages t).
Proof. reflexivity. Qed.

Lemma therapist_city_ci (c : string) (t : Therapist.t) :
  ci_holds c (Dump.therapist t "city") = opt_contains_ci c (Therapist.city t).
Proof. cbn. now destruct (Therapist.city t). Qed.

Lemma unless_absent_pointwise (param : option string) (f g : string -> bool) :
  (forall s, f s = g s) -> unless_absent param f = unless_absent param g.
Proof.
  intros H. destruct param as [s|]; simpl; [|reflexivity].
  now destruct (String.eqb s "").
Qed.

(** The directory filter, for plain parameters, is [directory_selects]. *)
Lemma find_directory (language city q : option string) (st : Store) :
  plain language = true -> plain city = true -> plain q = true ->
  find c_therapist (therapists_query language city q) st
  = Some (filter (fun d => directory_selects language city q (body d))
                 (therapist st)).
Proof.
  intros Hl Hc Hq.
  destruct (compile_field_clause "languages" _ Hl) as (ql & El & Ml).
  destruct (compile_field_clause "city" _ Hc) as (qc & Ec & Mc).
  destruct (compile_or_clause _ Hq) as (qq & Eq & Mq).
  unfold find, therapists_query.
  rewrite !compile_query_app, El, Ec, Eq. cbn [option_map]. f_equal.
  apply filter_pointwise. intros d. cbn [col_fields c_therapist].
  rewrite !matches_app, Ml, Mc, Mq. unfold directory_selects.
  rewrite (unless_absent_pointwise language _ _
             (fun s => therapist_languages_ci s (body d))).
  rewrite (unless_absent_pointwise city _ _
             (fun s => therapist_city_ci s (body d))).
  apply andb_assoc.
Qed.










(** ** The selections, in the words of the specification *)

















(** ** What the listing handlers compute *)

Lemma list_therapists_eq (language city q : option string) (st : Store) :
  list_therapists language city q (Some st) =
  match find c_therapist (therapists_query language city q) st with
  | Some found => Some (Ok (map publish (firstn 50 found)), Some st)
  | None => None
  end.
Proof.
  unfold list_therapists, get_documents, bind, get_db, lift.
  now destruct (find _ _ _).
Qed.

Lemma match_eq (req : MatchRequest.t) (st : Store) :
  match_ req (Some st) =
  match find c_therapist (match_query req) st with
  | Some found => Some (Ok (map match_entry (firstn 10 found)), Some st)
  | None => None
  end.
Proof.
  unfold match_, bind, get_db, lift.
  now destruct (find _ _ _).
Qed.

(** ** Therapist directory *)




(** ** Matching *)




(* ================================================================== *)
(** * Further properties of the handlers *)

(** ** Reading never writes *)

(** X1.  The endpoints that read ([GET /], login, the therapist listing,
    matching, plans, the reviews, blog and FAQ listings, blog detail)
    leave the store handle exactly as they found it, whether they answer
    or raise. *)
Theorem reads_preserve_handle :
  preserves read_root /\
  (forall req, preserves (login req)) /\
  (forall language city q, preserves (list_therapists language city q)) /\
  (forall req, preserves (match_ req)) /\
  preserves plans /\
  preserves reviews /\
  (forall tag, preserves (blog_list tag)) /\
  (forall slug, preserves (blog_detail slug)) /\
  preserves faq_list.
Proof.
  unfold preserves. repeat split.
  - intros req [st|]; reflexivity.
  - intros language city q [st|]; [|reflexivity].
    rewrite list_therapists_eq. now destruct (find _ _ _).
  - intros req [st|]; [|reflexivity].
    rewrite match_eq. now destruct (find _ _ _).
  - intros [st|]; reflexivity.
  - intros tag [st|]; reflexivity.
  - intros slug [st|]; reflexivity.
  - intros [st|]; reflexivity.
Qed.

(** ** Written, then found *)

Lemma string_app_empty (s : string) : s ++ "" = s.
Proof. induction s as [|c s IH]; simpl; [reflexivity | now rewrite IH]. Qed.

Lemma contains_ci_refl (s : string) : Regex.contains_ci s s = true.
Proof.
  apply contains_ci_spec. exists "", "". simpl. now rewrite string_app_empty.
Qed.

(** X7.  A therapist whose body passes validation is found by a directory
    query for its own city: when the city is non-empty and made of ASCII
    characters other than pattern metacharacters, the integers of the
    record fit the 8 bytes the store gives them, and fewer than 50 stored
    therapists match the city, the listing asked after
    [POST /api/therapists] holds the validated record (its email in normal
    form) under the identifier that request returned. *)
Theorem post_therapist_then_find_by_city (normalize_email : string -> option string)
    (payload : list (string * Json.t)) (data : Therapist.t) (c : string)
    (st : Store) :
  parse_therapist normalize_email payload = Some (Ok data) ->
  fits_int64 (Therapist.experience_years data) ->
  fits_int64 (Therapist.price_per_week_inr data) ->
  Therapist.city data = Some c ->
  c <> "" ->
  Regex.literal c = true ->
  length (filter (fun d => directory_selects None (Some c) None (body d))
                 (therapist st)) < 50 ->
  exists tid st' items,
    post_therapists normalize_email payload (Some st) = Some (Ok tid, Some st') /\
    list_therapists None (Some c) None (Some st') = Some (Ok items, Some st') /\
    In (Item.Build tid data) items.
Proof.
  intros Hv _ _ Hc Hne Hlit Hlen.
  exists (str_id (next_id st)), (stored c_therapist data st).
  eexists. split; [|split].
  - rewrite post_therapists_eq. unfold parse_therapist in Hv.
    destruct (coerce_therapist payload) as [p|]; [|discriminate].
    cbn in Hv. injection Hv as Hv. rewrite Hv. apply add_therapist_live.
  - rewrite list_therapists_eq.
    now rewrite (find_directory None (Some c) None _ eq_refl Hlit eq_refl).
  - cbn [stored insert_one snd therapist set_next_id col_set c_therapist col_docs].
    rewrite filter_app. cbn [filter body].
    assert (S : directory_selects None (Some c) None data = true).
    { unfold directory_selects. cbn. apply String.eqb_neq in Hne.
      rewrite Hne, Hc. cbn. now rewrite contains_ci_refl. }
    rewrite S, (In_firstn_snoc _ _ Hlen), map_app.
    apply in_or_app. right. now left.
Qed.

(** The sample body, posted to the store of two cities, is found under
    ["Bangalore"] with its email in normal form. *)
Lemma post_therapist_then_find_by_city_witness :
  exists data st' items,
    Therapist.email data = "Asha@example.in" /\
    post_therapists Sample.normalize Sample.typed (Some Sample.two_cities)
    = Some (Ok "2", Some st') /\
    list_therapists None (Some "Bangalore") None (Some st')
    = Some (Ok items, Some st') /\
    In (Item.Build "2" data) items.
Proof.
  destruct (parse_therapist Sample.normalize Sample.typed) as [[data|e]|] eqn:P;
    try discriminate.
  destruct (post_therapist_then_find_by_city Sample.normalize Sample.typed
              (c := "Bangalore") Sample.two_cities P)
    as (tid & st' & items & E & L & I).
  - injection P as <-. vm_compute. split; [discriminate | reflexivity].
  - injection P as <-. vm_compute. split; [discriminate | reflexivity].
  - injection P as <-. reflexivity.
  - discriminate.
  - reflexivity.
  - injection P as <-. vm_compute. lia.
  - exists data, st', items.
    assert (T : tid = "2").
    { rewrite post_therapists_eq in E.
      unfold parse_therapist in P.
      destruct (coerce_therapist Sample.typed) as [p|]; [|discriminate].
      cbn in P. injection P as P. rewrite P, add_therapist_live in E.
      injection E as <- _. reflexivity. }
    subst tid. repeat split; try assumption.
    injection P as <-. reflexivity.
Defined.

(** ** Validation of reviews *)





(** ** What validation of therapists lets through *)

Ltac no_offence Hno :=
  exfalso; eapply Hno; econstructor; eassumption.

Lemma optional_field_clean {A} (f : string) (r : raw A) :
  r <> Malformed -> field_errors f true no_check r = [].
Proof.
  destruct r; intros H; [reflexivity | now elim H | reflexivity].
Qed.

(** X11.  Validation of a Therapist body refuses nothing else than the
    listed faults: when the coerced body has no bound violated, [name] and
    [email] present, no member that cannot be coerced, and an email the
    syntax check accepts, it is turned into a record that keeps the email
    in its normal form and has the declared default for every absent
    field.  So a body that gives only a name and a valid email is accepted
    with no specialties, 0 years of experience, languages ["English"],
    price 0, rating 4.8 and no slots. *)
Theorem therapist_accepted (normalize_email : string -> option string)
    (payload : list (string * Json.t)) :
  (forall p,
     coerce_therapist payload = Some p ->
     (forall f r, ~ offence p f r) ->
     (forall s, RawTherapist.email p = Given s ->
                exists s', normalize_email s = Some s') ->
     parse_therapist normalize_email payload
     = Some (Ok (therapist_of_raw normalize_email p))) /\
  (forall name email email',
     normalize_email email = Some email' ->
     parse_therapist normalize_email (bare_body name email)
     = Some (Ok (Therapist.Build name email' None None [] 0 ["English"] None
                   None 0 (48 # 10)%Q None []))).
Proof.
  split.
  - intros p Hc Hno Hmail. unfold parse_therapist. rewrite Hc. cbn. f_equal.
    unfold validate_therapist.
    assert (E : therapist_errors normalize_email p = []); [|now rewrite E].
    unfold therapist_errors.
    assert (E1 : field_errors "name" false no_check (RawTherapist.name p) = []).
    { destruct (RawTherapist.name p) eqn:E; [| |reflexivity];
        no_offence Hno. }
    assert (E2 : field_errors "email" false (check_email normalize_email)
                   (RawTherapist.email p) = []).
    { destruct (RawTherapist.email p) as [| |s] eqn:E;
        [no_offence Hno..|].
      cbn. unfold check_email. destruct (Hmail s eq_refl) as [s' ->].
      reflexivity. }
    assert (E3 : field_errors "experience_years" true check_ge0
                   (RawTherapist.experience_years p) = []).
    { destruct (RawTherapist.experience_years p) as [| |z] eqn:E;
        [reflexivity | no_offence Hno |].
      cbn. unfold check_ge0. destruct (Z.leb_spec 0 z); [reflexivity|].
      exfalso; eapply Hno; eapply experience_below; eassumption. }
    assert (E4 : field_errors "price_per_week_inr" true check_ge0
                   (RawTherapist.price_per_week_inr p) = []).
    { destruct (RawTherapist.price_per_week_inr p) as [| |z] eqn:E;
        [reflexivity | no_offence Hno |].
      cbn. unfold check_ge0. destruct (Z.leb_spec 0 z); [reflexivity|].
      exfalso; eapply Hno; eapply price_below; eassumption. }
    assert (E5 : field_errors "rating" true check_rating
                   (RawTherapist.rating p) = []).
    { destruct (RawTherapist.rating p) as [| |q] eqn:E;
        [reflexivity | no_offence Hno |].
      cbn. unfold check_rating.
      destruct (Qle_bool 0 q) eqn:Q0.
      - destruct (Qle_bool q 5) eqn:Q5; [reflexivity|].
        exfalso; eapply Hno; eapply rating_above; [eassumption|].
        apply Qnot_le_lt. intros L. apply Qle_bool_iff in L. congruence.
      - exfalso; eapply Hno; eapply rating_below; [eassumption|].
        apply Qnot_le_lt. intros L. apply Qle_bool_iff in L. congruence. }
    rewrite E1, E2, E3, E4, E5.
    rewrite (optional_field_clean "bio" (r := RawTherapist.bio p))
      by (intros M; eapply Hno; apply bio_type; exact M).
    rewrite (optional_field_clean "education" (r := RawTherapist.education p))
      by (intros M; eapply Hno; apply education_type; exact M).
    rewrite (optional_field_clean "specialties"
               (r := RawTherapist.specialties p))
      by (intros M; eapply Hno; apply specialties_type; exact M).
    rewrite (optional_field_clean "languages" (r := RawTherapist.languages p))
      by (intros M; eapply Hno; apply languages_type; exact M).
    rewrite (optional_field_clean "gender" (r := RawTherapist.gender p))
      by (intros M; eapply Hno; apply gender_type; exact M).
    rewrite (optional_field_clean "city" (r := RawTherapist.city p))
      by (intros M; eapply Hno; apply city_type; exact M).
    rewrite (optional_field_clean "photo_url" (r := RawTherapist.photo_url p))
      by (intros M; eapply Hno; apply photo_type; exact M).
    rewrite (optional_field_clean "slots" (r := RawTherapist.slots p))
      by (intros M; eapply Hno; apply slots_type; exact M).
    reflexivity.
  - intros name email email' Hv.
    unfold parse_therapist, bare_body. cbn.
    unfold validate_therapist, therapist_errors, therapist_of_raw. cbn.
    unfold check_email. now rewrite Hv.
Qed.

(** A bare body with a mixed-case address gets the defaults and the
    address in normal form. *)
Lemma therapist_accepted_witness :
  parse_therapist Sample.normalize (bare_body "Asha" "Asha@EXAMPLE.IN")
  = Some (Ok (Therapist.Build "Asha" "Asha@example.in" None None [] 0 ["English"]
                None None 0 (48 # 10)%Q None [])).
Proof.
  destruct (therapist_accepted Sample.normalize
              (bare_body "Asha" "Asha@EXAMPLE.IN")) as [_ B].
  apply B. reflexivity.
Defined.

(** ** Matching and the directory *)

(** X12.  The matching endpoint reads only [language], [city] and
    [concerns] of the request: two requests that agree on these three get
    the same answer, whatever their [age] and [gender_preference]. *)
Theorem match_ignores_age_and_gender (req req' : MatchRequest.t) (db : Handle) :
  MatchRequest.language req = MatchRequest.language req' ->
  MatchRequest.city req = MatchRequest.city req' ->
  MatchRequest.concerns req = MatchRequest.concerns req' ->
  match_ req db = match_ req' db.
Proof.
  intros Hl Hc Hs. destruct db as [st|]; [|reflexivity].
  rewrite !match_eq. unfold match_query. now rewrite Hl, Hc, Hs.
Qed.

(** A preference for a female therapist changes nothing. *)
Lemma match_ignores_age_and_gender_witness :
  match_ (MatchRequest.Build (Some 19%Z) ["anxiety"] None (Some "female") (Some "delhi"))
         (Some Sample.two_cities)
  = match_ (MatchRequest.Build None ["anxiety"] None (Some "male") (Some "delhi"))
           (Some Sample.two_cities).
Proof.
  apply match_ignores_age_and_gender; reflexivity.
Defined.

Lemma match_entry_publish (d : doc Therapist.t) :
  entry_of_item (publish d) = match_entry d.
Proof. reflexivity. Qed.

(** X13.  Matching without concerns is the head of the directory: for any
    language and city, when the directory listing (with no free-text
    query) answers [items], the matching endpoint with the same language
    and city and an empty concerns list answers the entries of the first
    10 of them, in the same order. *)
Theorem match_is_directory_prefix (language city : option string)
    (age : option Z) (gender_preference : option string) (st : Store)
    (items : list (Item.t Therapist.t)) :
  list_therapists language city None (Some st) = Some (Ok items, Some st) ->
  match_ (MatchRequest.Build age [] language gender_preference city) (Some st)
  = Some (Ok (map entry_of_item (firstn 10 items)), Some st).
Proof.
  rewrite list_therapists_eq, match_eq.
  change (match_query (MatchRequest.Build age [] language gender_preference city))
    with (therapists_query language city None).
  destruct (find _ _ _) as [found|]; [|discriminate].
  intros H.
  replace items with (map publish (firstn 50 found)) by congruence.
  rewrite firstn_map, firstn_firstn, map_map. cbn [Nat.min].
  do 3 f_equal.
Qed.

(** The store of 61 therapists: the listing answers 50, matching the
    first 10 of them. *)
Lemma match_is_directory_prefix_witness :
  exists items,
    list_therapists (Some "hindi") None None (Some Sample.sixty)
    = Some (Ok items, Some Sample.sixty) /\
    length items = 50 /\
    match_ (MatchRequest.Build None [] (Some "hindi") None None) (Some Sample.sixty)
    = Some (Ok (map entry_of_item (firstn 10 items)), Some Sample.sixty).
Proof.
  eexists. split; [vm_compute; reflexivity|]. split; [reflexivity|].
  apply match_is_directory_prefix. vm_compute. reflexivity.
Defined.

(** ** Letter case of the directory parameters *)

Lemma lower_string_empty (s : string) :
  Regex.lower_string s = "" -> s = "".
Proof. destruct s; [reflexivity | discriminate]. Qed.

Lemma unless_absent_fold (a a' : option string) (g : string -> bool) :
  same_letters a a' ->
  unless_absent a (fun s => g (Regex.lower_string s))
  = unless_absent a' (fun s => g (Regex.lower_string s)).
Proof.
  unfold same_letters. destruct a as [s|], a' as [s'|]; simpl;
    intros H; try discriminate; [|reflexivity].
  injection H as H.
  destruct (String.eqb s "") eqn:E, (String.eqb s' "") eqn:E'.
  - reflexivity.
  - apply String.eqb_eq in E. subst s. symmetry in H.
    apply lower_string_empty in H. subst s'. discriminate E'.
  - apply String.eqb_eq in E'. subst s'.
    apply lower_string_empty in H. subst s. discriminate E.
  - now rewrite H.
Qed.

Lemma directory_selects_fold (language language' city city' q q' : option string)
    (t : Therapist.t) :
  same_letters language language' ->
  same_letters city city' ->
  same_letters q q' ->
  directory_selects language city q t = directory_selects language' city' q' t.
Proof.
  intros Hl Hc Hq. unfold directory_selects. f_equal; [f_equal|].
  - exact (unless_absent_fold
             (fun l => existsb (fun x => Py.contains (Regex.lower_string x) l)
                               (Therapist.languages t)) Hl).
  - exact (unless_absent_fold
             (fun c => match Therapist.city t with
                       | Some x => Py.contains (Regex.lower_string x) c
                       | None => false
                       end) Hc).
  - exact (unless_absent_fold
             (fun s => Py.contains (Regex.lower_string (Therapist.name t)) s ||
                       existsb (fun x => Py.contains (Regex.lower_string x) s)
                               (Therapist.specialties t)) Hq).
Qed.

(** X14.  The directory listing does not look at the letter case of its
    parameters: two calls whose language, city and free-text parameters
    (all made of ASCII characters other than pattern metacharacters)
    differ only in the case of their letters get the same answer. *)
Theorem directory_ignores_letter_case
    (language language' city city' q q' : option string) (st : Store) :
  plain language = true -> plain city = true -> plain q = true ->
  plain language' = true -> plain city' = true -> plain q' = true ->
  same_letters language language' ->
  same_letters city city' ->
  same_letters q q' ->
  list_therapists language city q (Some st)
  = list_therapists language' city' q' (Some st).
Proof.
  intros Pl Pc Pq Pl' Pc' Pq' Hl Hc Hq.
  rewrite !list_therapists_eq.
  rewrite (find_directory language city q st Pl Pc Pq).
  rewrite (find_directory language' city' q' st Pl' Pc' Pq').
  do 5 f_equal. apply filter_pointwise. intros d.
  now apply directory_selects_fold.
Qed.

(** ["BANG"] and ["bang"], ["Stress"] and ["STRESS"]. *)
Lemma directory_ignores_letter_case_witness :
  list_therapists None (Some "BANG") (Some "Stress") (Some Sample.two_cities)
  = list_therapists None (Some "bang") (Some "STRESS") (Some Sample.two_cities) /\
  list_therapists None (Some "BANG") (Some "Stress") (Some Sample.two_cities)
  = Some (Ok [publish (Doc 0 (Sample.in_city "Bangalore"))], Some Sample.two_cities).
Proof.
  split; [|reflexivity].
  apply directory_ignores_letter_case; reflexivity.
Defined.

(** ** Contact messages and sessions are never read back *)



(** ** Answers hold stored therapists only *)

(** X17.  Whatever the parameters (patterns with a wildcard included),
    when the therapist listing answers, it answers at most 50 items, each
    one a stored therapist with its key rendered under [id]; and when the
    matching endpoint answers, each of its entries is the projection of a
    stored therapist. *)
Theorem answers_hold_stored_therapists (st : Store) :
  (forall language city q items db',
     list_therapists language city q (Some st) = Some (Ok items, db') ->
     length items <= 50 /\
     forall it, In it items ->
       exists d, In d (therapist st) /\ it = publish d) /\
  (forall req entries db',
     match_ req (Some st) = Some (Ok entries, db') ->
     forall e, In e entries ->
       exists d, In d (therapist st) /\ e = match_entry d).
Proof.
  split.
  - intros language city q items db'. rewrite list_therapists_eq.
    unfold find. cbn [col_docs c_therapist].
    destruct (Mongo.compile_query _) as [cq|]; [|discriminate].
    cbn [option_map]. intros H.
    replace items with
      (map publish
         (firstn 50 (filter (fun d => Mongo.matches (col_fields c_therapist (body d)) cq)
                            (therapist st)))) by congruence.
    split.
    + rewrite length_map, length_firstn. lia.
    + intros it Hit. apply in_map_iff in Hit. destruct Hit as (d & <- & Hd).
      exists d. split; [now apply In_firstn_filter in Hd | reflexivity].
  - intros req entries db'. rewrite match_eq.
    unfold find. cbn [col_docs c_therapist].
    destruct (Mongo.compile_query _) as [cq|]; [|discriminate].
    cbn [option_map]. intros H e.
    replace entries with
      (map match_entry
         (firstn 10 (filter (fun d => Mongo.matches (col_fields c_therapist (body d)) cq)
                            (therapist st)))) by congruence.
    intros He. apply in_map_iff in He. destruct He as (d & <- & Hd).
    exists d. split; [now apply In_firstn_filter in Hd | reflexivity].
Qed.

(** The wildcard pattern ["b.ng"] on the store of two cities. *)
Lemma answers_hold_stored_therapists_witness :
  list_therapists None (Some "b.ng") None (Some Sample.two_cities)
  = Some (Ok [publish (Doc 0 (Sample.in_city "Bangalore"))], Some Sample.two_cities) /\
  exists d, In d (therapist Sample.two_cities) /\
            publish (Doc 0 (Sample.in_city "Bangalore")) = publish d.
Proof.
  assert (L : list_therapists None (Some "b.ng") None (Some Sample.two_cities)
              = Some (Ok [publish (Doc 0 (Sample.in_city "Bangalore"))],
                      Some Sample.two_cities)) by reflexivity.
  split; [exact L|].
  destruct (answers_hold_stored_therapists Sample.two_cities) as [H _].
  destruct (H _ _ _ _ _ L) as [_ Hin].
  apply Hin. now left.
Defined.

(** ** The reads behind [if db] *)

(** X18.  On a live store the reviews listing, the FAQ listing and blog
    detail raise [NotImplementedError] at their test [if db], before any
    document is read, and leave the store as it was; only without a store
    do they answer (an empty list, or 404). *)
Theorem guarded_reads_raise_on_live_store (st : Store) :
  reviews (Some st) = Some (Raise NotImplementedError, Some st) /\
  faq_list (Some st) = Some (Raise NotImplementedError, Some st) /\
  (forall slug,
     blog_detail slug (Some st) = Some (Raise NotImplementedError, Some st)).
Proof. repeat split. Qed.

(** X19.  No sequence of served requests ever stores a user: signup is the
    only writer of the user collection and never gets past its test
    [if db], so the collection is empty in every store reached from the
    empty database. *)
Theorem no_user_is_ever_stored (normalize_email : string -> option string)
    (st : Store) :
  reachable normalize_email st -> user st = [].
Proof. apply reachable_users. Qed.

(** A signup and a therapist, served in turn. *)
Lemma no_user_is_ever_stored_witness :
  exists st,
    reachable Sample.normalize st /\
    length (therapist st) = 1 /\
    user st = [].
Proof.
  assert (R1 : reachable Sample.normalize empty_store).
  { apply reach_serve with (st := empty_store)
                           (w := PostSignup (SignupRequest.Build "Meera"
                                   "meera@example.in" "s3cret" None))
                           (r := Raise NotImplementedError);
      [apply reach_empty | reflexivity]. }
  eexists. split; [|split].
  - apply reach_serve with (st := empty_store) (w := PostTherapist Sample.typed)
                           (r := Ok tt); [exact R1 | vm_compute; reflexivity].
  - reflexivity.
  - apply (no_user_is_ever_stored (normalize_email := Sample.normalize)).
    apply reach_serve with (st := empty_store) (w := PostTherapist Sample.typed)
                           (r := Ok tt); [exact R1 | vm_compute; reflexivity].
Defined.
